(** * Truedat analyzer: the feature-to-mood scoring model of [src/analyze.py]

    The functions [normalize], [clamp], [compute_valence], [compute_arousal]
    and the scoring part of [analyze] are embedded as Rocq functions.

    Numbers.  Python floats are IEEE binary64 values.  The main model
    ([pyfloat]) idealises the finite ones as exact rationals and keeps [nan]
    as a separate value, because [numpy.mean] of an empty slice produces it
    and Python's [min]/[max] treat it in a particular way.  Overflow to
    infinity and rounding error are outside this model; module [Binary64]
    re-runs the same formulas on primitive binary64 floats at the concrete
    inputs where the last bits matter.

    Errors.  A Python call either returns a value or raises: [result]. *)

From Stdlib Require Import QArith Qminmax Qround Qabs.
From Stdlib Require Import ZArith Lia Lqa Bool String List.
From Stdlib Require Import PrimFloat.
Import ListNotations.

Local Open Scope Q_scope.

(** ** Outcomes of a Python call *)

(** [ZeroDivisionError] is raised by float division, [KeyError] by a failed
    pool lookup and [RuntimeError] by the Essentia extractor.
    [InsufficientFeatures] and [InvalidMode] are the two error kinds the
    specification names; they are listed so that statements about them can be
    written, and no function of the source raises them. *)
Inductive exn : Set :=
  | ZeroDivisionError
  | KeyError
  | RuntimeError
  | InsufficientFeatures
  | InvalidMode.

Inductive result (A : Type) : Type :=
  | Returned (a : A)
  | Raised (e : exn).

Arguments Returned {A} a.
Arguments Raised {A} e.

Definition bind {A B : Type} (m : result A) (k : A -> result B) : result B :=
  match m with
  | Returned a => k a
  | Raised e => Raised e
  end.

Declare Scope py_scope.
Delimit Scope py_scope with py.

Notation "x <- m ;; k" := (bind m (fun x => k))
  (at level 61, m at next level, right associativity) : py_scope.

(** [try: body / except: handler] with a bare [except], which catches every
    exception. *)
Definition try_except {A : Type} (body : result A) (handler : A) : A :=
  match body with
  | Returned a => a
  | Raised _ => handler
  end.

(** ** Floats *)

Inductive pyfloat : Set :=
  | Fin (q : Q)
  | NaN.

Definition padd (a b : pyfloat) : pyfloat :=
  match a, b with
  | Fin x, Fin y => Fin (x + y)
  | _, _ => NaN
  end.

Definition psub (a b : pyfloat) : pyfloat :=
  match a, b with
  | Fin x, Fin y => Fin (x - y)
  | _, _ => NaN
  end.

Definition pmul (a b : pyfloat) : pyfloat :=
  match a, b with
  | Fin x, Fin y => Fin (x * y)
  | _, _ => NaN
  end.

(** Python's [a / b] on floats: a zero divisor raises, whatever [a] is. *)
Definition pdiv (a b : pyfloat) : result pyfloat :=
  match b with
  | NaN => Returned NaN
  | Fin y =>
      if Qeq_bool y 0 then Raised ZeroDivisionError
      else match a with
           | Fin x => Returned (Fin (x / y))
           | NaN => Returned NaN
           end
  end.

(** [a < b]; every comparison with [nan] is false. *)
Definition plt (a b : pyfloat) : bool :=
  match a, b with
  | Fin x, Fin y => match x ?= y with Lt => true | _ => false end
  | _, _ => false
  end.

Infix "+" := padd : py_scope.
Infix "-" := psub : py_scope.
Infix "*" := pmul : py_scope.

(** Equality of floats up to the representation of the rational. *)
Definition feq (a b : pyfloat) : Prop :=
  match a, b with
  | Fin x, Fin y => x == y
  | NaN, NaN => True
  | _, _ => False
  end.

(** The builtins [min(a, b)] and [max(a, b)]: the first argument is kept
    unless the second one compares strictly smaller (larger). *)
Definition builtin_min (a b : pyfloat) : pyfloat := if plt b a then b else a.
Definition builtin_max (a b : pyfloat) : pyfloat := if plt a b then b else a.

(** ** analyze.py *)

(** [def normalize(x, min_val, max_val):
       return (x - min_val) / (max_val - min_val + 1e-9)] *)
Definition normalize (x min_val max_val : pyfloat) : result pyfloat :=
  pdiv (x - min_val)%py (max_val - min_val + Fin 1e-9)%py.

(** [def clamp(x, min_val=0.0, max_val=1.0):
       return max(min_val, min(max_val, x))] *)
Definition clamp (x min_val max_val : pyfloat) : pyfloat :=
  builtin_max min_val (builtin_min max_val x).

(** The default arguments of [clamp]. *)
Definition clamp_min_default : pyfloat := Fin 0.
Definition clamp_max_default : pyfloat := Fin 1.

(** [mfccs[:5]]: slicing never raises, a shorter list is returned whole. *)
Definition slice_to (n : nat) (l : list pyfloat) : list pyfloat := firstn n l.

(** [numpy.mean]: the sum of the elements divided by their number.  For an
    empty array this is [0.0 / 0], which numpy evaluates to [nan] with a
    warning and no exception. *)
Definition np_sum (a : list pyfloat) : pyfloat := fold_left padd a (Fin 0).

Definition np_mean (a : list pyfloat) : pyfloat :=
  match a with
  | [] => NaN
  | _ :: _ =>
      match np_sum a with
      | Fin s => Fin (s / inject_Z (Z.of_nat (length a)))
      | NaN => NaN
      end
  end.

(** The weights, written as literals in the source. *)
Definition w_mode : Q := 0.35.
Definition w_centroid : Q := 0.25.
Definition w_valence_model : Q := 0.20.
Definition w_brightness : Q := 0.20.

Definition w_bpm : Q := 0.4.
Definition w_loudness : Q := 0.3.
Definition w_flux : Q := 0.2.
Definition w_energy_model : Q := 0.1.

(** [mode_flag = 1 if mode == "major" else 0] *)
Definition mode_flag (mode : string) : pyfloat :=
  if String.eqb mode "major" then Fin 1 else Fin 0.

(** The argument of [clamp] in [compute_valence]. *)
Definition valence_raw (mode : string) (spectral_centroid valence_model : pyfloat)
    (mfccs : list pyfloat) : pyfloat :=
  let mfcc_brightness := np_mean (slice_to 5 mfccs) in
  (Fin w_mode * mode_flag mode
   + Fin w_centroid * spectral_centroid
   + Fin w_valence_model * valence_model
   + Fin w_brightness * mfcc_brightness)%py.

Definition compute_valence (mode : string) (spectral_centroid valence_model : pyfloat)
    (mfccs : list pyfloat) : result pyfloat :=
  Returned (clamp (valence_raw mode spectral_centroid valence_model mfccs)
                  clamp_min_default clamp_max_default).

(** The argument of [clamp] in [compute_arousal]. *)
Definition arousal_raw (bpm loudness spectral_flux energy_model : pyfloat) : pyfloat :=
  (Fin w_bpm * bpm
   + Fin w_loudness * loudness
   + Fin w_flux * spectral_flux
   + Fin w_energy_model * energy_model)%py.

Definition compute_arousal (bpm loudness spectral_flux energy_model : pyfloat)
    : result pyfloat :=
  Returned (clamp (arousal_raw bpm loudness spectral_flux energy_model)
                  clamp_min_default clamp_max_default).

(** *** The Essentia collaborator, as seen by [analyze] *)

(** The pool returned by [MusicExtractor]; a missing key raises [KeyError]. *)
Record Pool : Set := mkPool {
  lowlevel_spectral_energy : option pyfloat;
  highlevel_valence_all_mean : option pyfloat
}.

Definition lookup (entry : option pyfloat) : result pyfloat :=
  match entry with
  | Some v => Returned v
  | None => Raised KeyError
  end.

(** What the extractors hand to [analyze] for one file. *)
Record Essentia : Type := mkEssentia {
  es_bpm : pyfloat;
  es_loudness : pyfloat;
  es_centroid : pyfloat;
  es_flux : pyfloat;
  es_mfcc : list pyfloat;
  es_key : string;
  es_scale : string;
  es_music_extractor : result Pool
}.

(** The body of the [try] block. *)
Definition high_level_models (es : Essentia) : result (pyfloat * pyfloat) :=
  (high <- es_music_extractor es ;;
   energy_model <- lookup (lowlevel_spectral_energy high) ;;
   valence_model <- lookup (highlevel_valence_all_mean high) ;;
   Returned (energy_model, valence_model))%py.

(** [round(x, ndigits)]: to the nearest multiple of [10^-ndigits], ties to
    the even one. *)
Definition round_half_even (q : Q) : Z :=
  let f := Qfloor q in
  match (q - inject_Z f ?= 1 # 2)%Q with
  | Lt => f
  | Gt => (f + 1)%Z
  | Eq => if Z.even f then f else (f + 1)%Z
  end.

Definition py_round (x : pyfloat) (ndigits : nat) : pyfloat :=
  match x with
  | Fin q =>
      let scale := inject_Z (10 ^ Z.of_nat ndigits) in
      Fin (inject_Z (round_half_even (q * scale)) / scale)
  | NaN => NaN
  end.

(** The dictionary returned by [analyze]. *)
Record Mood : Set := mkMood {
  bpm : pyfloat;
  loudness : pyfloat;
  spectral_centroid : pyfloat;
  spectral_flux : pyfloat;
  key : string;
  mode : string;
  valence : pyfloat;
  arousal : pyfloat
}.

(** Lines 95-114 of [analyze]: the fallback for the high-level models, the
    four normalisations and the two scores. *)
Definition mood_vector (es : Essentia) : result (pyfloat * pyfloat) :=
  let '(energy_model, valence_model) :=
    try_except (high_level_models es) (Fin 0.5, Fin 0.5) in
  (bpm_n <- normalize (es_bpm es) (Fin 60) (Fin 200) ;;
   loud_n <- normalize (es_loudness es) (Fin (-60)) (Fin 0) ;;
   cent_n <- normalize (es_centroid es) (Fin 500) (Fin 5000) ;;
   flux_n <- normalize (es_flux es) (Fin 0) (Fin 1) ;;
   arousal <- compute_arousal bpm_n loud_n flux_n energy_model ;;
   valence <- compute_valence (es_scale es) cent_n valence_model (es_mfcc es) ;;
   Returned (valence, arousal))%py.

(** Lines 116-125: the returned dictionary, with its roundings. *)
Definition analyze (es : Essentia) : result Mood :=
  (va <- mood_vector es ;;
   Returned {| bpm := py_round (es_bpm es) 1;
               loudness := py_round (es_loudness es) 2;
               spectral_centroid := py_round (es_centroid es) 1;
               spectral_flux := py_round (es_flux es) 3;
               key := es_key es;
               mode := es_scale es;
               valence := py_round (fst va) 3;
               arousal := py_round (snd va) 3 |})%py.

(** ** The same formulas on binary64 floats

    Python's [+], [-], [*], [/] and [<] on floats are the IEEE binary64
    operations with rounding to nearest, which is what the primitive floats
    compute.  The decimal literals denote the nearest binary64 value, as in
    Python. *)
Module Binary64.

#[local] Set Warnings "-inexact-float".
Local Open Scope float_scope.

Definition normalize (x min_val max_val : float) : result float :=
  let d := max_val - min_val + 1e-9 in
  if d =? 0 then Raised ZeroDivisionError else Returned ((x - min_val) / d).

Definition builtin_min (a b : float) : float := if b <? a then b else a.
Definition builtin_max (a b : float) : float := if a <? b then b else a.

Definition clamp (x min_val max_val : float) : float :=
  builtin_max min_val (builtin_min max_val x).

Fixpoint count (n : nat) : float :=
  match n with
  | O => 0
  | S k => count k + 1
  end.

Definition np_mean (a : list float) : float :=
  fold_left PrimFloat.add a 0 / count (length a).

Definition compute_valence (mode : string) (spectral_centroid valence_model : float)
    (mfccs : list float) : float :=
  let mode_flag := if String.eqb mode "major" then 1 else 0 in
  let mfcc_brightness := np_mean (firstn 5 mfccs) in
  clamp (0.35 * mode_flag +
         0.25 * spectral_centroid +
         0.20 * valence_model +
         0.20 * mfcc_brightness) 0 1.

Definition compute_arousal (bpm loudness spectral_flux energy_model : float) : float :=
  clamp (0.4 * bpm +
         0.3 * loudness +
         0.2 * spectral_flux +
         0.1 * energy_model) 0 1.

(** The weights, added in the order in which the formulas add them. *)
Definition valence_weight_sum : float := 0.35 + 0.25 + 0.20 + 0.20.
Definition arousal_weight_sum : float := 0.4 + 0.3 + 0.2 + 0.1.

End Binary64.

(** ** The command line of [analyze.py] (lines 128-139) *)

Module Cli.

(** What is printed: a plain text line, [json.dumps] of the dictionary of
    [analyze], or [json.dumps({"error": message})]. *)
Inductive line : Set :=
  | Text (s : string)
  | JsonMood (m : Mood)
  | JsonError (message : string).

Record process : Set := mkProcess {
  stdout : list line;
  stderr : list line;
  exit_status : Z
}.

(** [analyze(path)]: the extractor calls of lines 76-93 on the file, which
    may raise, followed by the rest of [analyze]. *)
Definition analyze_path (essentia : string -> result Essentia) (path : string)
    : result Mood :=
  (es <- essentia path ;; analyze es)%py.

(** [argv] is [sys.argv], [str] is Python's [str(e)]. *)
Definition main (essentia : string -> result Essentia) (str : exn -> string)
    (argv : list string) : process :=
  match argv with
  | _ :: path :: _ =>
      match analyze_path essentia path with
      | Returned r =>
          {| stdout := [JsonMood r]; stderr := []; exit_status := 0 |}
      | Raised e =>
          {| stdout := []; stderr := [JsonError (str e)]; exit_status := 1 |}
      end
  | _ =>
      {| stdout := [];
         stderr := [Text "Usage: python analyze.py <audio_file_path>"];
         exit_status := 1 |}
  end.

End Cli.

(** ** visualize.py *)

Module Visualize.

#[local] Set Warnings "-register-all".

(** A value produced by [json.load].  The members of an object are kept in
    the order of the file, as Python dictionaries do; their keys are
    distinct. *)
Inductive json : Set :=
  | JNull
  | JBool (b : bool)
  | JNum (x : pyfloat)
  | JStr (s : string)
  | JArr (items : list json)
  | JObj (members : list (string * json)).

Definition dict : Set := list (string * json).

Inductive failure : Set :=
  | AttributeError
  | KeyMissing (k : string)
  | IndexError.

Inductive outcome (A : Type) : Type :=
  | Done (a : A)
  | Fail (e : failure).

Arguments Done {A} a.
Arguments Fail {A} e.

Definition and_then {A B : Type} (m : outcome A) (k : A -> outcome B) : outcome B :=
  match m with
  | Done a => k a
  | Fail e => Fail e
  end.

Fixpoint for_each {A B : Type} (f : A -> outcome B) (l : list A) : outcome (list B) :=
  match l with
  | [] => Done []
  | a :: rest =>
      and_then (f a) (fun b =>
      and_then (for_each f rest) (fun bs => Done (b :: bs)))
  end.

Fixpoint dict_find (d : dict) (k : string) : option json :=
  match d with
  | [] => None
  | (k', v) :: rest => if String.eqb k' k then Some v else dict_find rest k
  end.

(** [d.get(k, default)] *)
Definition dict_get (d : dict) (k : string) (default : json) : json :=
  match dict_find d k with
  | Some v => v
  | None => default
  end.

(** [d[k]] *)
Definition dict_index (d : dict) (k : string) : outcome json :=
  match dict_find d k with
  | Some v => Done v
  | None => Fail (KeyMissing k)
  end.

(** The dictionary appended for one entry; [features.get] exists only when
    [features] is an object. *)
Definition track_of (features : json) : outcome dict :=
  match features with
  | JObj f =>
      Done [("artist"%string, dict_get f "artist" (JStr ""));
            ("title"%string, dict_get f "title" (JStr ""));
            ("valence"%string, dict_get f "valence" (JNum (Fin 0.5)));
            ("arousal"%string, dict_get f "arousal" (JNum (Fin 0.5)))]
  | _ => Fail AttributeError
  end.

(** [load_trackdat], from the value read by [json.load]. *)
Definition load_trackdat (data : json) : outcome (list dict) :=
  match data with
  | JObj d =>
      match dict_get d "tracks" (JObj []) with
      | JObj items => for_each (fun item => track_of (snd item)) items
      | _ => Fail AttributeError
      end
  | _ => Fail AttributeError
  end.

(** [range(0, stop, step)] for a positive step; its length is computed as
    Python does. *)
Definition py_range (stop step : nat) : list nat :=
  map (fun k => (k * step)%nat) (seq 0 ((stop + step - 1) / step)).

(** [l[i]] *)
Definition list_index {A : Type} (l : list A) (i : nat) : outcome A :=
  match nth_error l i with
  | Some a => Done a
  | None => Fail IndexError
  end.

(** A label stands for the string [f'{artist} - {title}']. *)
Record label : Set := mkLabel {
  label_artist : json;
  label_title : json
}.

(** What [plot_mood_map] hands to matplotlib: the scattered points, their
    colours and the annotations. *)
Record figure : Set := mkFigure {
  points : list (json * json);
  colours : list json;
  annotations : list (label * (json * json))
}.

Definition plot_mood_map (tracks : list dict) : outcome figure :=
  and_then (for_each (fun t => dict_index t "valence") tracks) (fun valence =>
  and_then (for_each (fun t => dict_index t "arousal") tracks) (fun arousal =>
  and_then (for_each (fun t =>
              and_then (dict_index t "artist") (fun a =>
              and_then (dict_index t "title") (fun ti =>
              Done (mkLabel a ti)))) tracks) (fun labels =>
  let step := Nat.max 1 (length labels / 30) in
  and_then (for_each (fun i =>
              and_then (list_index labels i) (fun lab =>
              and_then (list_index valence i) (fun v =>
              and_then (list_index arousal i) (fun a =>
              Done (lab, (v, a))))))
            (py_range (length labels) step)) (fun notes =>
  Done {| points := combine valence arousal;
          colours := arousal;
          annotations := notes |})))).

End Visualize.

(** ** Notions used in the statements *)

(** The mathematical saturation of a rational into [[0,1]]. *)
Definition saturate (x : Q) : Q := Qmax 0 (Qmin 1 x).

(** The mean of a non-empty list of rationals. *)
Definition mean (l : list Q) : Q :=
  fold_left Qplus l 0 / inject_Z (Z.of_nat (length l)).

(** The mode flag as a rational. *)
Definition flag_value (mode : string) : Q :=
  if String.eqb mode "major" then 1 else 0.

(** The same extraction with another outcome of the high-level stage. *)
Definition with_music_extractor (es : Essentia) (m : result Pool) : Essentia :=
  {| es_bpm := es_bpm es;
     es_loudness := es_loudness es;
     es_centroid := es_centroid es;
     es_flux := es_flux es;
     es_mfcc := es_mfcc es;
     es_key := es_key es;
     es_scale := es_scale es;
     es_music_extractor := m |}.


(** The same extraction with another tempo. *)
Definition set_bpm (es : Essentia) (b : pyfloat) : Essentia :=
  {| es_bpm := b;
     es_loudness := es_loudness es;
     es_centroid := es_centroid es;
     es_flux := es_flux es;
     es_mfcc := es_mfcc es;
     es_key := es_key es;
     es_scale := es_scale es;
     es_music_extractor := es_music_extractor es |}.

(** An extraction whose high-level stage raised. *)
Definition extractor_down : Essentia :=
  {| es_bpm := Fin 120;
     es_loudness := Fin (-12);
     es_centroid := Fin 2000;
     es_flux := Fin 0.25;
     es_mfcc := [Fin 0.1; Fin 0.2; Fin 0.3; Fin 0.4; Fin 0.5; Fin 0.6];
     es_key := "A";
     es_scale := "minor";
     es_music_extractor := Raised RuntimeError |}.

(** The two scenarios of the specification. *)
Definition scenario_low : Essentia :=
  {| es_bpm := Fin 60;
     es_loudness := Fin (-60);
     es_centroid := Fin 500;
     es_flux := Fin 0;
     es_mfcc := [Fin 0; Fin 0; Fin 0; Fin 0; Fin 0];
     es_key := "A";
     es_scale := "minor";
     es_music_extractor :=
       Returned {| lowlevel_spectral_energy := Some (Fin 0.5);
                   highlevel_valence_all_mean := Some (Fin 0.5) |} |}.

Definition scenario_high : Essentia :=
  {| es_bpm := Fin 200;
     es_loudness := Fin 0;
     es_centroid := Fin 5000;
     es_flux := Fin 1;
     es_mfcc := [Fin 1; Fin 1; Fin 1; Fin 1; Fin 1];
     es_key := "C";
     es_scale := "major";
     es_music_extractor :=
       Returned {| lowlevel_spectral_energy := Some (Fin 1);
                   highlevel_valence_all_mean := Some (Fin 1) |} |}.

(** * Properties *)

(** ** Comparisons, [min], [max] and [clamp] on real values *)

Lemma plt_Fin (x y : Q) : plt (Fin x) (Fin y) = true <-> x < y.
Proof.
  simpl. rewrite Qlt_alt. destruct (x ?= y); split; congruence.
Qed.

Lemma plt_Fin_false (x y : Q) : plt (Fin x) (Fin y) = false <-> y <= x.
Proof.
  rewrite <- not_true_iff_false, plt_Fin. split; intro H.
  - apply Qnot_lt_le, H.
  - apply Qle_not_lt, H.
Qed.

Lemma saturate_bounds (x : Q) : 0 <= saturate x <= 1.
Proof.
  unfold saturate. split.
  - apply Q.le_max_l.
  - apply Q.max_lub; [discriminate | apply Q.le_min_l].
Qed.

Lemma saturate_mono (x y : Q) : x <= y -> saturate x <= saturate y.
Proof.
  intro H. unfold saturate.
  apply Q.max_le_compat_l, Q.min_le_compat_l, H.
Qed.

Lemma clamp_real (x : Q) :
  exists v, clamp (Fin x) clamp_min_default clamp_max_default = Fin v
            /\ v == saturate x.
Proof.
  unfold clamp, clamp_min_default, clamp_max_default, builtin_min, saturate.
  destruct (plt (Fin x) (Fin 1)) eqn:Hx1.
  - apply plt_Fin in Hx1. unfold builtin_max.
    destruct (plt (Fin 0) (Fin x)) eqn:H0x.
    + apply plt_Fin in H0x. exists x. split; [reflexivity|].
      rewrite (Q.min_r 1 x) by lra. rewrite Q.max_r by lra. reflexivity.
    + apply plt_Fin_false in H0x. exists 0. split; [reflexivity|].
      rewrite (Q.min_r 1 x) by lra. rewrite Q.max_l by lra. reflexivity.
  - apply plt_Fin_false in Hx1. exists 1. split; [reflexivity|].
    rewrite (Q.min_l 1 x) by lra. rewrite Q.max_r by lra. reflexivity.
Qed.

(** [nan] goes through both comparisons as false: [min(1.0, nan)] keeps
    [1.0] and [max(0.0, 1.0)] is [1.0]. *)
Lemma clamp_nan : clamp NaN clamp_min_default clamp_max_default = Fin 1.
Proof. reflexivity. Qed.

Lemma clamp_unit (x : pyfloat) :
  exists v, clamp x clamp_min_default clamp_max_default = Fin v /\ 0 <= v <= 1.
Proof.
  destruct x as [q|].
  - destruct (clamp_real q) as (v & Hv & Hs). exists v. split; [exact Hv|].
    rewrite Hs. apply saturate_bounds.
  - exists 1. split; [apply clamp_nan | lra].
Qed.

(** ** [numpy.mean] and the raw scores on real values *)

Lemma fold_padd_real (l : list Q) (acc : Q) :
  fold_left padd (map Fin l) (Fin acc) = Fin (fold_left Qplus l acc).
Proof.
  revert acc. induction l as [|a l IH]; intro acc; simpl.
  - reflexivity.
  - apply IH.
Qed.

Lemma np_mean_real (l : list Q) :
  l <> [] -> np_mean (map Fin l) = Fin (mean l).
Proof.
  destruct l as [|a l]; [congruence|]. intros _.
  unfold np_mean, np_sum, mean.
  change (map Fin (a :: l)) with (Fin a :: map Fin l).
  cbv match. change (Fin a :: map Fin l) with (map Fin (a :: l)).
  rewrite fold_padd_real, length_map. reflexivity.
Qed.

Lemma slice_to_real (n : nat) (l : list Q) :
  slice_to n (map Fin l) = map Fin (firstn n l).
Proof. unfold slice_to. apply firstn_map. Qed.

Lemma mode_flag_real (mode : string) : mode_flag mode = Fin (flag_value mode).
Proof. unfold mode_flag, flag_value. destruct (String.eqb mode "major"); reflexivity. Qed.

Lemma valence_raw_real (mode : string) (c vm : Q) (l : list Q) :
  firstn 5 l <> [] ->
  valence_raw mode (Fin c) (Fin vm) (map Fin l)
  = Fin (w_mode * flag_value mode + w_centroid * c + w_valence_model * vm
         + w_brightness * mean (firstn 5 l)).
Proof.
  intro Hne. unfold valence_raw.
  rewrite slice_to_real, (np_mean_real _ Hne), mode_flag_real. reflexivity.
Qed.

Lemma padd_nan_r (a : pyfloat) : (a + NaN)%py = NaN.
Proof. destruct a; reflexivity. Qed.

Lemma pmul_nan_r (a : pyfloat) : (a * NaN)%py = NaN.
Proof. destruct a; reflexivity. Qed.

Lemma valence_raw_empty (mode : string) (c vm : pyfloat) :
  valence_raw mode c vm [] = NaN.
Proof.
  unfold valence_raw, slice_to, np_mean, firstn.
  rewrite pmul_nan_r. apply padd_nan_r.
Qed.

Lemma arousal_raw_real (b l f e : Q) :
  arousal_raw (Fin b) (Fin l) (Fin f) (Fin e)
  = Fin (w_bpm * b + w_loudness * l + w_flux * f + w_energy_model * e).
Proof. reflexivity. Qed.

Lemma fold_Qplus_mono (l l' : list Q) :
  Forall2 Qle l l' ->
  forall acc acc', acc <= acc' -> fold_left Qplus l acc <= fold_left Qplus l' acc'.
Proof.
  induction 1 as [|a a' l l' Ha _ IH]; intros acc acc' Hacc; simpl.
  - exact Hacc.
  - apply IH. lra.
Qed.

Lemma mean_mono (l l' : list Q) : Forall2 Qle l l' -> mean l <= mean l'.
Proof.
  intro H. unfold mean. rewrite <- (Forall2_length H).
  unfold Qdiv. apply Qmult_le_compat_r.
  - apply fold_Qplus_mono; [exact H | lra].
  - apply Qinv_le_0_compat. change 0 with (inject_Z 0).
    rewrite <- Zle_Qle. lia.
Qed.

(** ** Saturation *)

(** C1: for every input, [nan] included, the valence returned by
    [compute_valence] and the arousal returned by [compute_arousal] are
    numbers of the closed interval [[0,1]]. *)
Theorem scores_within_unit_interval
    (mode : string) (cent_n valence_model : pyfloat) (mfccs : list pyfloat)
    (bpm_n loud_n flux_n energy_model : pyfloat) :
  exists v a,
    compute_valence mode cent_n valence_model mfccs = Returned (Fin v)
    /\ compute_arousal bpm_n loud_n flux_n energy_model = Returned (Fin a)
    /\ 0 <= v <= 1 /\ 0 <= a <= 1.
Proof.
  destruct (clamp_unit (valence_raw mode cent_n valence_model mfccs)) as (v & Hv & Bv).
  destruct (clamp_unit (arousal_raw bpm_n loud_n flux_n energy_model)) as (a & Ha & Ba).
  exists v, a. unfold compute_valence, compute_arousal.
  rewrite Hv, Ha. repeat split; tauto.
Qed.

(** A tempo of 400 normalises to about 2.43 and the arousal still saturates
    at 1. *)
Example arousal_at_bpm_400 :
  (bpm_n <- normalize (Fin 400) (Fin 60) (Fin 200) ;;
   compute_arousal bpm_n (Fin 1) (Fin 1) (Fin 1))%py = Returned (Fin 1).
Proof. vm_compute. reflexivity. Qed.

(** ** The two formulas *)

(** C4: with mode major or minor and at least five real timbre coefficients,
    [compute_valence] returns the saturation of
    0.35 modeFlag + 0.25 centroid + 0.20 valenceModel + 0.20 brightness,
    where modeFlag is 1 for major and 0 for minor and brightness is the mean
    of the first five coefficients; whatever follows them ([rest]) does not
    appear in the result. *)
Theorem compute_valence_formula
    (mode : string) (modeFlag cent_n valence_model a0 a1 a2 a3 a4 : Q)
    (rest : list pyfloat) :
  (mode = "major"%string /\ modeFlag = 1) \/ (mode = "minor"%string /\ modeFlag = 0) ->
  exists v,
    compute_valence mode (Fin cent_n) (Fin valence_model)
      (Fin a0 :: Fin a1 :: Fin a2 :: Fin a3 :: Fin a4 :: rest) = Returned (Fin v)
    /\ v == saturate (0.35 * modeFlag + 0.25 * cent_n + 0.20 * valence_model
                      + 0.20 * ((a0 + a1 + a2 + a3 + a4) / 5)).
Proof.
  intros Hmode.
  assert (Hflag : mode_flag mode = Fin modeFlag)
    by (destruct Hmode as [[-> ->]|[-> ->]]; reflexivity).
  unfold compute_valence, valence_raw, slice_to.
  change (firstn 5 (Fin a0 :: Fin a1 :: Fin a2 :: Fin a3 :: Fin a4 :: rest))
    with (map Fin [a0; a1; a2; a3; a4]).
  rewrite np_mean_real by discriminate. rewrite Hflag.
  cbv beta iota delta [padd pmul].
  match goal with |- context [clamp (Fin ?r)] => destruct (clamp_real r) as (v & Hv & Hs) end.
  exists v. split; [rewrite Hv; reflexivity|].
  rewrite Hs. apply Q.max_compat; [reflexivity | apply Q.min_compat; [reflexivity|]].
  unfold mean, w_mode, w_centroid, w_valence_model, w_brightness. simpl.
  change (inject_Z 5) with 5. field.
Qed.

Lemma compute_valence_formula_witness :
  exists v,
    compute_valence "minor" (Fin 0.5) (Fin 0.5)
      [Fin 1; Fin 0; Fin 1; Fin 0; Fin 0.5; NaN; Fin 7] = Returned (Fin v)
    /\ v == saturate (0.35 * 0 + 0.25 * 0.5 + 0.20 * 0.5
                      + 0.20 * ((1 + 0 + 1 + 0 + 0.5) / 5)).
Proof.
  apply (compute_valence_formula "minor" 0 0.5 0.5 1 0 1 0 0.5 [NaN; Fin 7]).
  right. split; reflexivity.
Defined.

(** C5: for every input [compute_arousal] returns
    [clamp(0.4 bpm + 0.3 loudness + 0.2 flux + 0.1 energyModel, 0, 1)]; on
    real inputs that is the saturation of the weighted sum; and the four
    weights add up to 1 within 1e-9. *)
Theorem compute_arousal_formula :
  (forall bpm_n loud_n flux_n energy_model : pyfloat,
     compute_arousal bpm_n loud_n flux_n energy_model
     = Returned (clamp (Fin 0.4 * bpm_n + Fin 0.3 * loud_n + Fin 0.2 * flux_n
                        + Fin 0.1 * energy_model)%py (Fin 0) (Fin 1)))
  /\ (forall b l f e : Q, exists a,
        compute_arousal (Fin b) (Fin l) (Fin f) (Fin e) = Returned (Fin a)
        /\ a == saturate (0.4 * b + 0.3 * l + 0.2 * f + 0.1 * e))
  /\ Qabs (w_bpm + w_loudness + w_flux + w_energy_model - 1) <= 1e-9.
Proof.
  split; [|split].
  - reflexivity.
  - intros b l f e. unfold compute_arousal. rewrite arousal_raw_real.
    match goal with |- context [clamp (Fin ?r)] => destruct (clamp_real r) as (a & Ha & Hs) end.
    exists a. split; [rewrite Ha; reflexivity | exact Hs].
  - vm_compute. discriminate.
Qed.

(** On binary64 floats the arousal weights add up to 0.99999999999999989
    and the valence weights to 1.0: both within 1e-9 of 1. *)
Example weight_sums_binary64 :
  (PrimFloat.leb (PrimFloat.abs (Binary64.arousal_weight_sum - 1)) 0x1.12e0be826d695p-30
   && PrimFloat.leb (PrimFloat.abs (Binary64.valence_weight_sum - 1)) 0x1.12e0be826d695p-30)%bool
  = true.
Proof. reflexivity. Qed.

(** ** Mode sensitivity *)



(** ** Monotonicity *)

Lemma firstn_empty_real (l : list Q) : firstn 5 l = [] -> map Fin l = [].
Proof. destruct l; [reflexivity | discriminate]. Qed.

Lemma compute_valence_mono
    (mode : string) (c c' vm vm' : Q) (l l' : list Q) :
  c <= c' -> vm <= vm' -> Forall2 Qle (firstn 5 l) (firstn 5 l') ->
  exists v v',
    compute_valence mode (Fin c) (Fin vm) (map Fin l) = Returned (Fin v)
    /\ compute_valence mode (Fin c') (Fin vm') (map Fin l') = Returned (Fin v')
    /\ v <= v'.
Proof.
  intros Hc Hvm Hl. unfold compute_valence.
  destruct (firstn 5 l) as [|x s] eqn:El.
  - assert (El' : firstn 5 l' = []).
    { apply Forall2_length in Hl. destruct (firstn 5 l'); [reflexivity | discriminate]. }
    rewrite (firstn_empty_real _ El), (firstn_empty_real _ El'), !valence_raw_empty.
    exists 1, 1. rewrite clamp_nan. repeat split; lra.
  - assert (Hs : firstn 5 l <> []) by (rewrite El; discriminate).
    assert (Hs' : firstn 5 l' <> []).
    { intro E. apply Forall2_length in Hl. rewrite E in Hl. discriminate. }
    rewrite <- El in Hl. pose proof (mean_mono _ _ Hl) as Hm.
    rewrite (valence_raw_real _ _ _ _ Hs), (valence_raw_real _ _ _ _ Hs').
    match goal with |- context [clamp (Fin ?r)] => destruct (clamp_real r) as (v & -> & Ev) end.
    match goal with |- context [clamp (Fin ?r)] => destruct (clamp_real r) as (v' & -> & Ev') end.
    exists v, v'. split; [reflexivity | split; [reflexivity|]].
    rewrite Ev, Ev'. apply saturate_mono.
    unfold w_mode, w_centroid, w_valence_model, w_brightness. lra.
Qed.

Lemma compute_arousal_mono (b b' l l' f f' e e' : Q) :
  b <= b' -> l <= l' -> f <= f' -> e <= e' ->
  exists a a',
    compute_arousal (Fin b) (Fin l) (Fin f) (Fin e) = Returned (Fin a)
    /\ compute_arousal (Fin b') (Fin l') (Fin f') (Fin e') = Returned (Fin a')
    /\ a <= a'.
Proof.
  intros Hb Hl Hf He. unfold compute_arousal. rewrite !arousal_raw_real.
  match goal with |- context [clamp (Fin ?r)] => destruct (clamp_real r) as (a & -> & Ea) end.
  match goal with |- context [clamp (Fin ?r)] => destruct (clamp_real r) as (a' & -> & Ea') end.
  exists a, a'. split; [reflexivity | split; [reflexivity|]].
  rewrite Ea, Ea'. apply saturate_mono.
  unfold w_bpm, w_loudness, w_flux, w_energy_model. lra.
Qed.

(** C10: on real inputs both scores are nondecreasing in every numeric
    argument: raising the normalised centroid, the valence model or any of
    the first five timbre coefficients does not lower the valence, and
    raising the normalised bpm, loudness, flux or the energy model does not
    lower the arousal. *)
Theorem scores_monotone
    (mode : string) (c c' vm vm' : Q) (mfccs mfccs' : list Q)
    (b b' l l' f f' e e' : Q) :
  c <= c' -> vm <= vm' -> Forall2 Qle (firstn 5 mfccs) (firstn 5 mfccs') ->
  b <= b' -> l <= l' -> f <= f' -> e <= e' ->
  exists v v' a a',
    compute_valence mode (Fin c) (Fin vm) (map Fin mfccs) = Returned (Fin v)
    /\ compute_valence mode (Fin c') (Fin vm') (map Fin mfccs') = Returned (Fin v')
    /\ compute_arousal (Fin b) (Fin l) (Fin f) (Fin e) = Returned (Fin a)
    /\ compute_arousal (Fin b') (Fin l') (Fin f') (Fin e') = Returned (Fin a')
    /\ v <= v' /\ a <= a'.
Proof.
  intros Hc Hvm Hm Hb Hl Hf He.
  destruct (compute_valence_mono mode _ _ _ _ _ _ Hc Hvm Hm) as (v & v' & H1 & H2 & H3).
  destruct (compute_arousal_mono _ _ _ _ _ _ _ _ Hb Hl Hf He) as (a & a' & H4 & H5 & H6).
  exists v, v', a, a'. tauto.
Qed.

Lemma scores_monotone_witness :
  exists v v' a a',
    compute_valence "minor" (Fin 0.1) (Fin 0.5) (map Fin [0; 0; 0.5; 0; 0; 9])
      = Returned (Fin v)
    /\ compute_valence "minor" (Fin 0.1) (Fin 0.5) (map Fin [0; 0; 1; 0; 0; 2])
      = Returned (Fin v')
    /\ compute_arousal (Fin 0.2) (Fin 0.3) (Fin 0.1) (Fin 0.5) = Returned (Fin a)
    /\ compute_arousal (Fin 0.7) (Fin 0.3) (Fin 0.1) (Fin 0.5) = Returned (Fin a')
    /\ v <= v' /\ a <= a'.
Proof.
  apply (scores_monotone "minor" 0.1 0.1 0.5 0.5 [0; 0; 0.5; 0; 0; 9] [0; 0; 1; 0; 0; 2]
           0.2 0.7 0.3 0.3 0.1 0.1 0.5 0.5);
    try (unfold Qle; simpl; lia).
  simpl. repeat constructor; unfold Qle; simpl; lia.
Defined.

(** ** Short coefficient lists and unknown modes *)

(** C2, as the source behaves: three coefficients are accepted, the slice
    [mfccs[:5]] is the whole list and a valence is returned
    (0.20 * 0.5 + 0.20 * 1 = 0.3); no error is raised. *)
Lemma three_coefficients_are_scored :
  (length [Fin 1; Fin 1; Fin 1] < 5)%nat
  /\ compute_valence "minor" (Fin 0) (Fin 0.5) [Fin 1; Fin 1; Fin 1]
     <> Raised InsufficientFeatures
  /\ exists v,
       compute_valence "minor" (Fin 0) (Fin 0.5) [Fin 1; Fin 1; Fin 1] = Returned (Fin v)
       /\ v == 0.3.
Proof.
  split; [simpl; lia|]. split; [discriminate|].
  eexists. split; [vm_compute; reflexivity | reflexivity].
Qed.

(** The same call on binary64 floats returns 0.30000000000000004. *)
Example three_coefficients_binary64 :
  Binary64.compute_valence "minor" 0 0x1p-1 [1; 1; 1]%float = 0x1.3333333333334p-2%float.
Proof. reflexivity. Qed.

(** C2, amended: with one to four real coefficients [compute_valence] raises
    nothing and returns the saturated weighted sum in which the brightness
    is the mean of all the coefficients supplied. *)
Theorem short_list_brightness_is_its_mean
    (mode : string) (cent_n valence_model : Q) (mfccs : list Q) :
  mfccs <> [] -> (length mfccs < 5)%nat ->
  exists v,
    compute_valence mode (Fin cent_n) (Fin valence_model) (map Fin mfccs)
    = Returned (Fin v)
    /\ v == saturate (0.35 * flag_value mode + 0.25 * cent_n + 0.20 * valence_model
                      + 0.20 * mean mfccs).
Proof.
  intros Hne Hlen.
  assert (Hall : firstn 5 mfccs = mfccs) by (apply firstn_all2; lia).
  unfold compute_valence. rewrite valence_raw_real by (rewrite Hall; exact Hne).
  rewrite Hall.
  match goal with |- context [clamp (Fin ?r)] => destruct (clamp_real r) as (v & -> & Ev) end.
  exists v. split; [reflexivity | exact Ev].
Qed.

Lemma short_list_brightness_is_its_mean_witness :
  exists v,
    compute_valence "major" (Fin 0.5) (Fin 0.5) (map Fin [0.2; 0.4]) = Returned (Fin v)
    /\ v == saturate (0.35 * flag_value "major" + 0.25 * 0.5 + 0.20 * 0.5
                      + 0.20 * mean [0.2; 0.4]).
Proof.
  apply (short_list_brightness_is_its_mean "major" 0.5 0.5 [0.2; 0.4]).
  - discriminate.
  - simpl. lia.
Defined.

(** With no coefficient at all the brightness is [nan], which [clamp] turns
    into 1. *)
Lemma no_coefficient_valence (mode : string) (cent_n valence_model : pyfloat) :
  compute_valence mode cent_n valence_model [] = Returned (Fin 1).
Proof.
  unfold compute_valence. rewrite valence_raw_empty, clamp_nan. reflexivity.
Qed.

Example no_coefficient_binary64 :
  Binary64.compute_valence "minor" 0 0x1p-1 [] = 1%float.
Proof. reflexivity. Qed.

(** C3, as the source behaves: the mode "dorian" is accepted and scored with
    mode flag 0 (0.25 * 0.4 + 0.20 * 0.5 + 0.20 * 0.5 = 0.3); no error is
    raised. *)
Lemma unknown_mode_is_scored :
  "dorian"%string <> "major"%string /\ "dorian"%string <> "minor"%string
  /\ compute_valence "dorian" (Fin 0.4) (Fin 0.5)
       [Fin 0.5; Fin 0.5; Fin 0.5; Fin 0.5; Fin 0.5] <> Raised InvalidMode
  /\ exists v,
       compute_valence "dorian" (Fin 0.4) (Fin 0.5)
         [Fin 0.5; Fin 0.5; Fin 0.5; Fin 0.5; Fin 0.5] = Returned (Fin v)
       /\ v == 0.3.
Proof.
  repeat split; try discriminate.
  eexists. split; [vm_compute; reflexivity | reflexivity].
Qed.

(** C3, amended: a mode outside {major, minor} raises nothing; the mode flag
    is 0 and the valence returned is the one returned for mode minor. *)
Theorem unknown_mode_scored_as_minor
    (mode : string) (cent_n valence_model : pyfloat) (mfccs : list pyfloat) :
  mode <> "major"%string -> mode <> "minor"%string ->
  mode_flag mode = Fin 0
  /\ compute_valence mode cent_n valence_model mfccs
     = compute_valence "minor" cent_n valence_model mfccs
  /\ exists v,
       compute_valence mode cent_n valence_model mfccs = Returned (Fin v)
       /\ 0 <= v <= 1.
Proof.
  intros Hmajor _.
  assert (Hflag : mode_flag mode = Fin 0).
  { unfold mode_flag. apply String.eqb_neq in Hmajor. rewrite Hmajor. reflexivity. }
  split; [exact Hflag|]. split.
  - unfold compute_valence, valence_raw. rewrite Hflag. reflexivity.
  - unfold compute_valence.
    destruct (clamp_unit (valence_raw mode cent_n valence_model mfccs)) as (v & -> & Bv).
    exists v. split; [reflexivity | exact Bv].
Qed.

Lemma unknown_mode_scored_as_minor_witness :
  mode_flag "dorian" = Fin 0
  /\ compute_valence "dorian" (Fin 0.4) (Fin 0.5) [Fin 1; Fin 1; Fin 1; Fin 1; Fin 1]
     = compute_valence "minor" (Fin 0.4) (Fin 0.5) [Fin 1; Fin 1; Fin 1; Fin 1; Fin 1]
  /\ exists v,
       compute_valence "dorian" (Fin 0.4) (Fin 0.5) [Fin 1; Fin 1; Fin 1; Fin 1; Fin 1]
       = Returned (Fin v)
       /\ 0 <= v <= 1.
Proof.
  apply (unknown_mode_scored_as_minor "dorian" (Fin 0.4) (Fin 0.5)
           [Fin 1; Fin 1; Fin 1; Fin 1; Fin 1]); discriminate.
Defined.

(** ** [normalize] *)

Lemma normalize_real (x lo hi : Q) :
  ~ hi - lo + 1e-9 == 0 ->
  normalize (Fin x) (Fin lo) (Fin hi) = Returned (Fin ((x - lo) / (hi - lo + 1e-9))).
Proof.
  intro Hd. unfold normalize, psub, padd, pdiv.
  destruct (Qeq_bool (hi - lo + 1e-9) 0) eqn:E.
  - apply Qeq_bool_eq in E. contradiction.
  - reflexivity.
Qed.

(** With a reference range whose denominator is not zero, [normalize]
    returns for every float, [nan] included. *)
Lemma normalize_fixed_range (x : pyfloat) (lo hi : Q) :
  Qeq_bool (hi - lo + 1e-9) 0 = false ->
  exists r, normalize x (Fin lo) (Fin hi) = Returned r.
Proof.
  intro E. unfold normalize, pdiv.
  destruct x as [q|]; simpl; rewrite E; eexists; reflexivity.
Qed.


(** On binary64 floats the same denominator is exactly [0.0] as well. *)
Example normalize_raises_binary64 :
  Binary64.normalize 0 0x1.12e0be826d695p-30 0 = Raised ZeroDivisionError.
Proof. reflexivity. Qed.




(** ** [analyze]: the fallback for the high-level models *)

Lemma mood_vector_returns (es : Essentia) :
  exists v a, mood_vector es = Returned (Fin v, Fin a).
Proof.
  unfold mood_vector.
  destruct (try_except (high_level_models es) (Fin 0.5, Fin 0.5)) as [em vmod].
  destruct (normalize_fixed_range (es_bpm es) 60 200 eq_refl) as (r1 & ->).
  destruct (normalize_fixed_range (es_loudness es) (-60) 0 eq_refl) as (r2 & ->).
  destruct (normalize_fixed_range (es_centroid es) 500 5000 eq_refl) as (r3 & ->).
  destruct (normalize_fixed_range (es_flux es) 0 1 eq_refl) as (r4 & ->).
  unfold compute_arousal, compute_valence, bind.
  destruct (clamp_unit (arousal_raw r1 r2 r4 em)) as (a & -> & _).
  destruct (clamp_unit (valence_raw (es_scale es) r3 vmod (es_mfcc es))) as (v & -> & _).
  exists v, a. reflexivity.
Qed.

Lemma analyze_returns (es : Essentia) : exists m, analyze es = Returned m.
Proof.
  unfold analyze. destruct (mood_vector_returns es) as (v & a & ->).
  eexists. reflexivity.
Qed.



(** A pool that lacks only the valence entry falls back for both models. *)
Example fallback_on_missing_entry :
  mood_vector (with_music_extractor extractor_down
                 (Returned {| lowlevel_spectral_energy := Some (Fin 0.9);
                              highlevel_valence_all_mean := None |}))
  = mood_vector extractor_down.
Proof. reflexivity. Qed.

(** ** The two scenarios of the specification *)

(** At the lower ends of the ranges every normalised feature is exactly 0,
    so the scores are exactly 0.1 and 0.05. *)
Example scenario_low_scores :
  exists v a, mood_vector scenario_low = Returned (Fin v, Fin a)
              /\ v == 0.1 /\ a == 0.05.
Proof.
  eexists. eexists. split; [vm_compute; reflexivity|]. split; reflexivity.
Qed.

(** C9, as the source behaves: at the upper ends of the ranges each
    normalised feature is [d / (d + 1e-9)], a little below 1, and so are
    both scores: neither is exactly 1. *)
Lemma scenario_high_scores_below_one :
  exists v a, mood_vector scenario_high = Returned (Fin v, Fin a)
              /\ v < 1 /\ a < 1.
Proof.
  eexists. eexists. split; [vm_compute; reflexivity|]. split; reflexivity.
Qed.

(** The same on binary64 floats: both scores compare strictly below 1.0. *)
Example scenario_high_binary64 :
  match Binary64.normalize 200 60 200, Binary64.normalize 0 (-60) 0,
        Binary64.normalize 5000 500 5000, Binary64.normalize 1 0 1 with
  | Returned bpm_n, Returned loud_n, Returned cent_n, Returned flux_n =>
      (PrimFloat.ltb (Binary64.compute_valence "major" cent_n 1 [1; 1; 1; 1; 1]%float) 1
       && PrimFloat.ltb (Binary64.compute_arousal bpm_n loud_n flux_n 1) 1)%bool
  | _, _, _, _ => false
  end = true.
Proof. reflexivity. Qed.

(** C9, amended: for that input the two scores are strictly below 1 and
    within 1e-9 of it, and the valence and arousal that [analyze] reports,
    rounded to three decimals, are exactly 1. *)
Theorem scenario_high_rounds_to_one :
  exists v a m,
    mood_vector scenario_high = Returned (Fin v, Fin a)
    /\ 1 - 1e-9 < v < 1 /\ 1 - 1e-9 < a < 1
    /\ analyze scenario_high = Returned m
    /\ feq (valence m) (Fin 1) /\ feq (arousal m) (Fin 1).
Proof.
  eexists. eexists. eexists.
  split; [vm_compute; reflexivity|].
  split; [split; reflexivity|]. split; [split; reflexivity|].
  split; [vm_compute; reflexivity|]. split; reflexivity.
Qed.


(** * Further properties of [analyze.py] *)

(** ** [clamp] with arbitrary bounds *)

Ltac plt_cases :=
  repeat match goal with
  | |- context [plt (Fin ?a) (Fin ?b)] =>
      let E := fresh "E" in
      destruct (plt (Fin a) (Fin b)) eqn:E;
      [apply plt_Fin in E | apply plt_Fin_false in E]
  end.

Ltac plt_nan :=
  repeat match goal with
  | |- context [plt NaN ?b] => change (plt NaN b) with false; cbv iota
  end.

Ltac unfold_clamp := unfold clamp, builtin_max, builtin_min; plt_nan.

(** X1: With ordered real bounds the result of [clamp] lies between them, and a
    value that is already between them is returned unchanged. *)
Theorem clamp_within_bounds (x lo hi : Q) :
  lo <= hi ->
  exists v,
    clamp (Fin x) (Fin lo) (Fin hi) = Fin v
    /\ lo <= v <= hi
    /\ (lo <= x <= hi -> v == x).
Proof.
  intro H. unfold_clamp. plt_cases; eexists; (split; [reflexivity|]); split; lra.
Qed.

Lemma clamp_within_bounds_witness :
  exists v,
    clamp (Fin 0.7) (Fin 0.25) (Fin 2) = Fin v
    /\ 0.25 <= v <= 2
    /\ (0.25 <= 0.7 <= 2 -> v == 0.7).
Proof.
  apply (clamp_within_bounds 0.7 0.25 2). unfold Qle; simpl; lia.
Defined.

(** X2: With inverted bounds ([max_val < min_val]) [clamp] returns [min_val]
    whatever the value is, [nan] included. *)
Theorem clamp_inverted_bounds (x : pyfloat) (lo hi : Q) :
  hi < lo -> clamp x (Fin lo) (Fin hi) = Fin lo.
Proof.
  intro H. destruct x as [q|]; unfold_clamp; plt_cases; try reflexivity; lra.
Qed.

Lemma clamp_inverted_bounds_witness : clamp (Fin 0.5) (Fin 1) (Fin 0) = Fin 1.
Proof.
  apply (clamp_inverted_bounds (Fin 0.5) 1 0). reflexivity.
Defined.

(** X3: [nan] is clamped to the upper bound: both comparisons against it are
    false, so [min] keeps [max_val] and [max] then picks it. *)
Theorem clamp_nan_upper_bound (lo hi : Q) :
  lo <= hi -> feq (clamp NaN (Fin lo) (Fin hi)) (Fin hi).
Proof.
  intro H. unfold_clamp. plt_cases; simpl; lra.
Qed.

Lemma clamp_nan_upper_bound_witness : feq (clamp NaN (Fin (-60)) (Fin 0)) (Fin 0).
Proof.
  apply (clamp_nan_upper_bound (-60) 0). unfold Qle; simpl; lia.
Defined.

(** X4: Clamping twice with the same real bounds is clamping once, for every
    value and every pair of bounds. *)
Theorem clamp_idempotent (x : pyfloat) (lo hi : Q) :
  clamp (clamp x (Fin lo) (Fin hi)) (Fin lo) (Fin hi) = clamp x (Fin lo) (Fin hi).
Proof.
  destruct x as [q|]; unfold_clamp; plt_cases; try reflexivity; lra.
Qed.

(** X5: [clamp] is nondecreasing in the value, for every pair of real bounds. *)
Theorem clamp_monotone (x y lo hi : Q) :
  x <= y ->
  exists v w,
    clamp (Fin x) (Fin lo) (Fin hi) = Fin v
    /\ clamp (Fin y) (Fin lo) (Fin hi) = Fin w
    /\ v <= w.
Proof.
  intro H. unfold_clamp. plt_cases; eexists; eexists;
    (split; [reflexivity|]); (split; [reflexivity|]); lra.
Qed.

Lemma clamp_monotone_witness :
  exists v w,
    clamp (Fin 0.2) (Fin 0) (Fin 1) = Fin v
    /\ clamp (Fin 3) (Fin 0) (Fin 1) = Fin w
    /\ v <= w.
Proof.
  apply (clamp_monotone 0.2 3 0 1). unfold Qle; simpl; lia.
Defined.

(** ** [normalize] on an ordered range *)









(** ** The scores on in-range inputs *)

Ltac sat_cases x :=
  let m := fresh "m" in
  let M := fresh "M" in
  destruct (Q.min_spec 1 x) as [[? ?]|[? ?]];
  destruct (Q.max_spec 0 (Qmin 1 x)) as [[? ?]|[? ?]];
  set (m := Qmin 1 x) in *; set (M := Qmax 0 m) in *; clearbody M; clearbody m.

Lemma saturate_id (x : Q) : 0 <= x <= 1 -> saturate x == x.
Proof. intros [H0 H1]. unfold saturate. sat_cases x; lra. Qed.

Lemma saturate_below (x b : Q) : x <= b -> 0 <= b -> saturate x <= b.
Proof. intros H1 H2. unfold saturate. sat_cases x; lra. Qed.

Lemma saturate_above (x b : Q) : b <= x -> b <= 1 -> b <= saturate x.
Proof. intros H1 H2. unfold saturate. sat_cases x; lra. Qed.


Lemma inject_length_cons (a : Q) (l : list Q) :
  inject_Z (Z.of_nat (length (a :: l))) == inject_Z (Z.of_nat (length l)) + 1.
Proof.
  simpl length. rewrite Nat2Z.inj_succ. unfold Z.succ. rewrite inject_Z_plus.
  reflexivity.
Qed.

Lemma fold_Qplus_lower (lo : Q) (l : list Q) :
  Forall (fun a => lo <= a) l ->
  forall acc, acc + inject_Z (Z.of_nat (length l)) * lo <= fold_left Qplus l acc.
Proof.
  induction 1 as [|a l Ha _ IH]; intro acc.
  - change (inject_Z (Z.of_nat (@length Q []))) with 0.
    change (fold_left Qplus [] acc) with acc. lra.
  - pose proof (IH (acc + a)) as IH1.
    pose proof (inject_length_cons a l) as En.
    change (fold_left Qplus (a :: l) acc) with (fold_left Qplus l (acc + a)).
    set (n := inject_Z (Z.of_nat (length l))) in *.
    set (n' := inject_Z (Z.of_nat (length (a :: l)))) in *.
    clearbody n n'.
    setoid_replace (acc + n' * lo) with (acc + lo + n * lo) by (rewrite En; ring).
    lra.
Qed.

Lemma fold_Qplus_upper (hi : Q) (l : list Q) :
  Forall (fun a => a <= hi) l ->
  forall acc, fold_left Qplus l acc <= acc + inject_Z (Z.of_nat (length l)) * hi.
Proof.
  induction 1 as [|a l Ha _ IH]; intro acc.
  - change (inject_Z (Z.of_nat (@length Q []))) with 0.
    change (fold_left Qplus [] acc) with acc. lra.
  - pose proof (IH (acc + a)) as IH1.
    pose proof (inject_length_cons a l) as En.
    change (fold_left Qplus (a :: l) acc) with (fold_left Qplus l (acc + a)).
    set (n := inject_Z (Z.of_nat (length l))) in *.
    set (n' := inject_Z (Z.of_nat (length (a :: l)))) in *.
    clearbody n n'.
    setoid_replace (acc + n' * hi) with (acc + hi + n * hi) by (rewrite En; ring).
    lra.
Qed.

Lemma length_positive (l : list Q) : l <> [] -> 0 < inject_Z (Z.of_nat (length l)).
Proof.
  destruct l as [|a l]; [congruence|]. intros _.
  change 0 with (inject_Z 0). rewrite <- Zlt_Qlt. simpl length. lia.
Qed.

Lemma mean_lower (lo : Q) (l : list Q) :
  l <> [] -> Forall (fun a => lo <= a) l -> lo <= mean l.
Proof.
  intros Hne Hall. pose proof (length_positive l Hne) as Hn.
  pose proof (fold_Qplus_lower lo l Hall 0) as H1. unfold mean.
  apply Qle_shift_div_l; [exact Hn|]. lra.
Qed.

Lemma mean_upper (hi : Q) (l : list Q) :
  l <> [] -> Forall (fun a => a <= hi) l -> mean l <= hi.
Proof.
  intros Hne Hall. pose proof (length_positive l Hne) as Hn.
  pose proof (fold_Qplus_upper hi l Hall 0) as H1. unfold mean.
  apply Qle_shift_div_r; [exact Hn|]. lra.
Qed.

Lemma mean_bounds (lo hi : Q) (l : list Q) :
  l <> [] -> Forall (fun a => lo <= a <= hi) l -> lo <= mean l <= hi.
Proof.
  intros Hne Hall. split.
  - apply mean_lower; [exact Hne|]. eapply Forall_impl; [|exact Hall].
    intros a [H _]; exact H.
  - apply mean_upper; [exact Hne|]. eapply Forall_impl; [|exact Hall].
    intros a [_ H]; exact H.
Qed.

(** X10: The arousal weights add up to 1, so on inputs that are all in [[0,1]]
    the clamp does nothing: the arousal is exactly the weighted sum. *)
Theorem arousal_unsaturated_on_unit_inputs (b l f e : Q) :
  0 <= b <= 1 -> 0 <= l <= 1 -> 0 <= f <= 1 -> 0 <= e <= 1 ->
  exists a,
    compute_arousal (Fin b) (Fin l) (Fin f) (Fin e) = Returned (Fin a)
    /\ a == 0.4 * b + 0.3 * l + 0.2 * f + 0.1 * e.
Proof.
  intros Hb Hl Hf He. unfold compute_arousal. rewrite arousal_raw_real.
  match goal with |- context [clamp (Fin ?r)] => destruct (clamp_real r) as (a & -> & Ea) end.
  exists a. split; [reflexivity|]. rewrite Ea.
  unfold w_bpm, w_loudness, w_flux, w_energy_model. apply saturate_id. lra.
Qed.

Lemma arousal_unsaturated_on_unit_inputs_witness :
  exists a,
    compute_arousal (Fin 0.5) (Fin 1) (Fin 0) (Fin 0.25) = Returned (Fin a)
    /\ a == 0.4 * 0.5 + 0.3 * 1 + 0.2 * 0 + 0.1 * 0.25.
Proof.
  apply (arousal_unsaturated_on_unit_inputs 0.5 1 0 0.25);
    split; unfold Qle; simpl; lia.
Defined.

(** X11: Likewise for the valence: with the centroid, the valence model and the
    coefficients of the slice all in [[0,1]], the valence is exactly the
    weighted sum, the brightness being the mean of the slice. *)
Theorem valence_unsaturated_on_unit_inputs
    (mode : string) (c vm : Q) (mfccs : list Q) :
  0 <= c <= 1 -> 0 <= vm <= 1 -> mfccs <> [] ->
  Forall (fun a => 0 <= a <= 1) (firstn 5 mfccs) ->
  exists v,
    compute_valence mode (Fin c) (Fin vm) (map Fin mfccs) = Returned (Fin v)
    /\ v == 0.35 * flag_value mode + 0.25 * c + 0.20 * vm
            + 0.20 * mean (firstn 5 mfccs).
Proof.
  intros Hc Hvm Hne Hall.
  assert (Hs : firstn 5 mfccs <> []) by (destruct mfccs; [congruence | discriminate]).
  pose proof (mean_bounds 0 1 _ Hs Hall) as Hm.
  unfold compute_valence. rewrite (valence_raw_real _ _ _ _ Hs).
  match goal with |- context [clamp (Fin ?r)] => destruct (clamp_real r) as (v & -> & Ev) end.
  exists v. split; [reflexivity|]. rewrite Ev.
  unfold w_mode, w_centroid, w_valence_model, w_brightness.
  apply saturate_id. unfold flag_value. destruct (String.eqb mode "major"); lra.
Qed.

Lemma valence_unsaturated_on_unit_inputs_witness :
  exists v,
    compute_valence "major" (Fin 1) (Fin 1) (map Fin [1; 0.5; 1]) = Returned (Fin v)
    /\ v == 0.35 * flag_value "major" + 0.25 * 1 + 0.20 * 1
            + 0.20 * mean (firstn 5 [1; 0.5; 1]).
Proof.
  apply (valence_unsaturated_on_unit_inputs "major" 1 1 [1; 0.5; 1]).
  - split; unfold Qle; simpl; lia.
  - split; unfold Qle; simpl; lia.
  - discriminate.
  - simpl. repeat constructor; unfold Qle; simpl; lia.
Defined.

(** ** The effect of the mode after the clamp *)


(** X13: With a mode other than major and the other inputs at most 1, the
    valence cannot exceed 0.65. *)
Theorem non_major_mode_caps_valence (mode : string) (c vm : Q) (mfccs : list Q) :
  mfccs <> [] -> mode <> "major"%string -> c <= 1 -> vm <= 1 ->
  Forall (fun a => a <= 1) (firstn 5 mfccs) ->
  exists v,
    compute_valence mode (Fin c) (Fin vm) (map Fin mfccs) = Returned (Fin v)
    /\ v <= 0.65.
Proof.
  intros Hne Hmode Hc Hvm Hall.
  assert (Hs : firstn 5 mfccs <> []) by (destruct mfccs; [congruence | discriminate]).
  pose proof (mean_upper 1 _ Hs Hall) as Hm.
  unfold compute_valence. rewrite (valence_raw_real _ _ _ _ Hs).
  match goal with |- context [clamp (Fin ?r)] => destruct (clamp_real r) as (v & -> & Ev) end.
  exists v. split; [reflexivity|].
  unfold w_mode, w_centroid, w_valence_model, w_brightness, flag_value in Ev.
  apply String.eqb_neq in Hmode. rewrite Hmode in Ev.
  rewrite Ev. apply saturate_below; lra.
Qed.

Lemma non_major_mode_caps_valence_witness :
  exists v,
    compute_valence "minor" (Fin 1) (Fin 1) (map Fin [1; 1; 1; 1; 1; 50])
    = Returned (Fin v)
    /\ v <= 0.65.
Proof.
  apply (non_major_mode_caps_valence "minor" 1 1 [1; 1; 1; 1; 1; 50]);
    try discriminate.
  simpl. repeat constructor; discriminate.
Defined.

(** X14: With mode major and the other inputs at least 0, the valence cannot
    fall below 0.35. *)
Theorem major_mode_floors_valence (c vm : Q) (mfccs : list Q) :
  mfccs <> [] -> 0 <= c -> 0 <= vm ->
  Forall (fun a => 0 <= a) (firstn 5 mfccs) ->
  exists v,
    compute_valence "major" (Fin c) (Fin vm) (map Fin mfccs) = Returned (Fin v)
    /\ 0.35 <= v.
Proof.
  intros Hne Hc Hvm Hall.
  assert (Hs : firstn 5 mfccs <> []) by (destruct mfccs; [congruence | discriminate]).
  pose proof (mean_lower 0 _ Hs Hall) as Hm.
  unfold compute_valence. rewrite (valence_raw_real _ _ _ _ Hs).
  match goal with |- context [clamp (Fin ?r)] => destruct (clamp_real r) as (v & -> & Ev) end.
  exists v. split; [reflexivity|].
  unfold w_mode, w_centroid, w_valence_model, w_brightness, flag_value in Ev.
  change (String.eqb "major" "major") with true in Ev. cbv iota in Ev.
  rewrite Ev. apply saturate_above; lra.
Qed.

Lemma major_mode_floors_valence_witness :
  exists v,
    compute_valence "major" (Fin 0) (Fin 0) (map Fin [0; 0; 0]) = Returned (Fin v)
    /\ 0.35 <= v.
Proof.
  apply (major_mode_floors_valence 0 0 [0; 0; 0]); try discriminate.
  simpl. repeat constructor; discriminate.
Defined.

(** ** [nan] features *)

Lemma padd_nan_l (a : pyfloat) : (NaN + a)%py = NaN.
Proof. reflexivity. Qed.

Lemma fold_padd_nan (l : list pyfloat) : fold_left padd l NaN = NaN.
Proof. induction l as [|a l IH]; [reflexivity | exact IH]. Qed.

Lemma fold_padd_in_nan (l : list pyfloat) :
  In NaN l -> forall acc, fold_left padd l acc = NaN.
Proof.
  induction l as [|a l IH]; intros Hin acc; [contradiction|].
  simpl. destruct Hin as [-> | Hin].
  - rewrite padd_nan_r. apply fold_padd_nan.
  - apply IH, Hin.
Qed.

Lemma np_mean_in_nan (l : list pyfloat) : In NaN l -> np_mean l = NaN.
Proof.
  intro Hin. destruct l as [|a l]; [contradiction|].
  unfold np_mean, np_sum. rewrite (fold_padd_in_nan _ Hin). reflexivity.
Qed.

(** X15: A [nan] in the normalised bpm, loudness, flux or energy model makes the
    arousal 1.0: the weighted sum is [nan] and [clamp] sends it to its upper
    bound. *)
Theorem nan_feature_maxes_arousal (b l f e : pyfloat) :
  b = NaN \/ l = NaN \/ f = NaN \/ e = NaN ->
  compute_arousal b l f e = Returned (Fin 1).
Proof.
  intro H. unfold compute_arousal.
  assert (Hraw : arousal_raw b l f e = NaN).
  { unfold arousal_raw. destruct H as [-> | [-> | [-> | ->]]];
      rewrite ?pmul_nan_r, ?padd_nan_r, ?padd_nan_l; reflexivity. }
  rewrite Hraw. rewrite clamp_nan. reflexivity.
Qed.

Lemma nan_feature_maxes_arousal_witness :
  compute_arousal (Fin 0) NaN (Fin 0) (Fin 0) = Returned (Fin 1).
Proof.
  apply (nan_feature_maxes_arousal (Fin 0) NaN (Fin 0) (Fin 0)).
  right. left. reflexivity.
Defined.

(** X16: The same for the valence: a [nan] centroid, valence model or
    coefficient among the first five makes the valence 1.0, whatever the
    mode. *)
Theorem nan_feature_maxes_valence
    (mode : string) (c vm : pyfloat) (mfccs : list pyfloat) :
  c = NaN \/ vm = NaN \/ In NaN (firstn 5 mfccs) ->
  compute_valence mode c vm mfccs = Returned (Fin 1).
Proof.
  intro H. unfold compute_valence.
  assert (Hraw : valence_raw mode c vm mfccs = NaN).
  { unfold valence_raw, slice_to. destruct H as [-> | [-> | Hin]].
    - rewrite pmul_nan_r, padd_nan_r. reflexivity.
    - rewrite pmul_nan_r, padd_nan_r. reflexivity.
    - rewrite (np_mean_in_nan _ Hin), pmul_nan_r. apply padd_nan_r. }
  rewrite Hraw, clamp_nan. reflexivity.
Qed.

Lemma nan_feature_maxes_valence_witness :
  compute_valence "minor" (Fin 0) (Fin 0) [Fin 0; Fin 0; NaN; Fin 0; Fin 0]
  = Returned (Fin 1).
Proof.
  apply (nan_feature_maxes_valence "minor" (Fin 0) (Fin 0)
           [Fin 0; Fin 0; NaN; Fin 0; Fin 0]).
  right. right. simpl. tauto.
Defined.

(** ** Rounding of the reported values *)

Lemma round_half_even_cases (q : Q) :
  round_half_even q = Qfloor q /\ q - inject_Z (Qfloor q) <= 1 # 2
  \/ round_half_even q = (Qfloor q + 1)%Z /\ 1 # 2 <= q - inject_Z (Qfloor q).
Proof.
  unfold round_half_even.
  destruct (q - inject_Z (Qfloor q) ?= 1 # 2) eqn:E.
  - apply Qeq_alt in E. destruct (Z.even (Qfloor q)); [left | right]; split;
      try reflexivity; lra.
  - apply Qlt_alt in E. left. split; [reflexivity | lra].
  - apply Qgt_alt in E. right. split; [reflexivity | lra].
Qed.

Lemma inject_Z_succ (z : Z) : inject_Z (z + 1) == inject_Z z + 1.
Proof. rewrite inject_Z_plus. reflexivity. Qed.

(** The rounded integer is within one half of the number. *)
Lemma round_half_even_near (q : Q) :
  inject_Z (round_half_even q) - (1 # 2) <= q
  /\ q <= inject_Z (round_half_even q) + (1 # 2).
Proof.
  pose proof (Qfloor_le q) as Hlo. pose proof (Qlt_floor q) as Hhi.
  rewrite inject_Z_succ in Hhi.
  destruct (round_half_even_cases q) as [[-> H]|[-> H]].
  - split; lra.
  - rewrite inject_Z_succ. split; lra.
Qed.

(** Rounding never crosses an integer. *)
Lemma round_half_even_between (a b : Z) (q : Q) :
  inject_Z a <= q <= inject_Z b -> (a <= round_half_even q <= b)%Z.
Proof.
  intros [Ha Hb].
  assert (Hfa : (a <= Qfloor q)%Z).
  { rewrite <- (Qfloor_Z a). apply Qfloor_resp_le, Ha. }
  pose proof (Qfloor_le q) as Hlo.
  destruct (round_half_even_cases q) as [[-> H]|[-> H]].
  - split; [exact Hfa|]. rewrite Zle_Qle. lra.
  - split; [lia|].
    assert (Hlt : inject_Z (Qfloor q) < inject_Z b) by lra.
    rewrite <- Zlt_Qlt in Hlt. lia.
Qed.

Lemma round_half_even_comp (q q' : Q) :
  q == q' -> round_half_even q = round_half_even q'.
Proof.
  intro E. unfold round_half_even. rewrite (Qfloor_comp _ _ E).
  assert (E' : q - inject_Z (Qfloor q') == q' - inject_Z (Qfloor q')) by (rewrite E; reflexivity).
  rewrite (Qcompare_comp _ _ E' (1 # 2) (1 # 2) (Qeq_refl _)). reflexivity.
Qed.

Lemma round_half_even_integer (z : Z) : round_half_even (inject_Z z) = z.
Proof.
  destruct (round_half_even_between z z (inject_Z z)) as [H1 H2]; [split; lra | lia].
Qed.

Lemma round_half_even_mono (q q' : Q) :
  q <= q' -> (round_half_even q <= round_half_even q')%Z.
Proof.
  intro H. destruct (Z_le_gt_dec (round_half_even q) (round_half_even q')) as [|Hgt];
    [assumption|].
  destruct (round_half_even_near q) as [L1 _].
  destruct (round_half_even_near q') as [_ U2].
  assert (Hz : (round_half_even q' + 1 <= round_half_even q)%Z) by lia.
  rewrite Zle_Qle, inject_Z_succ in Hz.
  assert (E : q == q') by lra.
  rewrite (round_half_even_comp _ _ E) in Hgt. lia.
Qed.

Lemma scale_positive (n : nat) : 0 < inject_Z (10 ^ Z.of_nat n).
Proof.
  change 0 with (inject_Z 0). rewrite <- Zlt_Qlt.
  apply Z.pow_pos_nonneg; lia.
Qed.


(** Rounding an already rounded value changes nothing. *)
Lemma py_round_idempotent (x : pyfloat) (n : nat) :
  feq (py_round (py_round x n) n) (py_round x n).
Proof.
  destruct x as [q|]; [|exact I]. simpl.
  pose proof (scale_positive n) as Hs. set (s := inject_Z (10 ^ Z.of_nat n)) in *.
  set (z := round_half_even (q * s)).
  assert (E : inject_Z z / s * s == inject_Z z) by (field; lra).
  rewrite (round_half_even_comp _ _ E), round_half_even_integer. reflexivity.
Qed.

(** Rounding is nondecreasing. *)
Lemma py_round_monotone_aux (q q' : Q) (n : nat) :
  q <= q' ->
  exists r r',
    py_round (Fin q) n = Fin r /\ py_round (Fin q') n = Fin r' /\ r <= r'.
Proof.
  intro H. eexists. eexists. split; [reflexivity|]. split; [reflexivity|].
  pose proof (scale_positive n) as Hs. set (s := inject_Z (10 ^ Z.of_nat n)) in *.
  unfold Qdiv. apply Qmult_le_compat_r.
  - rewrite <- Zle_Qle. apply round_half_even_mono.
    apply Qmult_le_compat_r; [exact H | lra].
  - apply Qlt_le_weak, Qinv_lt_0_compat, Hs.
Qed.

(** Ties go to the even neighbour: 0.0625 rounds down to 0.062 and 0.1875
    up to 0.188 (both are binary64 values, so they are ties in Python
    too). *)
Example py_round_ties :
  feq (py_round (Fin 0.0625) 3) (Fin 0.062) /\ feq (py_round (Fin 0.1875) 3) (Fin 0.188).
Proof. split; reflexivity. Qed.

(** ** What [analyze] reports *)

Lemma mood_vector_bounds (es : Essentia) :
  exists v a, mood_vector es = Returned (Fin v, Fin a)
              /\ 0 <= v <= 1 /\ 0 <= a <= 1.
Proof.
  unfold mood_vector.
  destruct (try_except (high_level_models es) (Fin 0.5, Fin 0.5)) as [em vmod].
  destruct (normalize_fixed_range (es_bpm es) 60 200 eq_refl) as (r1 & ->).
  destruct (normalize_fixed_range (es_loudness es) (-60) 0 eq_refl) as (r2 & ->).
  destruct (normalize_fixed_range (es_centroid es) 500 5000 eq_refl) as (r3 & ->).
  destruct (normalize_fixed_range (es_flux es) 0 1 eq_refl) as (r4 & ->).
  unfold compute_arousal, compute_valence, bind.
  destruct (clamp_unit (arousal_raw r1 r2 r4 em)) as (a & -> & Ba).
  destruct (clamp_unit (valence_raw (es_scale es) r3 vmod (es_mfcc es))) as (v & -> & Bv).
  exists v, a. split; [reflexivity | split; assumption].
Qed.

Lemma round_unit_thousandths (v : Q) :
  0 <= v <= 1 ->
  exists k, py_round (Fin v) 3 = Fin (inject_Z k / 1000) /\ (0 <= k <= 1000)%Z.
Proof.
  intros [H0 H1]. exists (round_half_even (v * 1000)). split; [reflexivity|].
  apply (round_half_even_between 0 1000).
  change (inject_Z 0) with 0. change (inject_Z 1000) with 1000. split; lra.
Qed.


(** X17: For every extraction, with [nan] features or a failed high-level stage
    included, [analyze] returns a dictionary whose valence and arousal are
    whole thousandths between 0 and 1, and whose key and mode are the
    extracted ones. *)
Theorem analyze_reports_unit_thousandths (es : Essentia) :
  exists m kv ka,
    analyze es = Returned m
    /\ valence m = Fin (inject_Z kv / 1000) /\ (0 <= kv <= 1000)%Z
    /\ arousal m = Fin (inject_Z ka / 1000) /\ (0 <= ka <= 1000)%Z
    /\ key m = es_key es /\ mode m = es_scale es.
Proof.
  unfold analyze. destruct (mood_vector_bounds es) as (v & a & -> & Bv & Ba).
  destruct (round_unit_thousandths v Bv) as (kv & Ev & Hkv).
  destruct (round_unit_thousandths a Ba) as (ka & Ea & Hka).
  eexists. exists kv, ka. split; [reflexivity|].
  cbn [valence arousal key mode fst snd].
  rewrite Ev, Ea. repeat split; lia.
Qed.


(** A [nan] feature on binary64 floats: the arousal is 1.0 there too. *)
Example nan_feature_binary64 :
  Binary64.compute_arousal PrimFloat.nan 0 0 0 = 1%float
  /\ Binary64.compute_valence "minor" 0 PrimFloat.nan [0; 0; 0; 0; 0]%float = 1%float.
Proof. split; reflexivity. Qed.

(** X19: A faster tempo never lowers the reported arousal and leaves the
    reported valence untouched, whatever the other features are. *)
Theorem reported_arousal_monotone_in_bpm (es : Essentia) (b b' : Q) :
  b <= b' ->
  exists m m' a a',
    analyze (set_bpm es (Fin b)) = Returned m
    /\ analyze (set_bpm es (Fin b')) = Returned m'
    /\ arousal m = Fin a /\ arousal m' = Fin a' /\ a <= a'
    /\ valence m = valence m'.
Proof.
  intro H. unfold analyze, mood_vector.
  change (high_level_models (set_bpm es (Fin b))) with (high_level_models es).
  change (high_level_models (set_bpm es (Fin b'))) with (high_level_models es).
  cbn [set_bpm es_bpm es_loudness es_centroid es_flux es_mfcc es_scale es_key].
  destruct (try_except (high_level_models es) (Fin 0.5, Fin 0.5)) as [em vmod].
  rewrite !(normalize_real _ 60 200) by discriminate.
  destruct (normalize_fixed_range (es_loudness es) (-60) 0 eq_refl) as (r2 & ->).
  destruct (normalize_fixed_range (es_centroid es) 500 5000 eq_refl) as (r3 & ->).
  destruct (normalize_fixed_range (es_flux es) 0 1 eq_refl) as (r4 & ->).
  cbn [bind]. unfold compute_valence. cbn [bind].
  destruct (clamp_unit (valence_raw (es_scale es) r3 vmod (es_mfcc es))) as (v & -> & _).
  assert (Hn : (b - 60) / (200 - 60 + 1e-9) <= (b' - 60) / (200 - 60 + 1e-9)).
  { unfold Qdiv. apply Qmult_le_compat_r; [lra | discriminate]. }
  assert (Hone : exists r r', py_round (Fin 1) 3 = Fin r /\ py_round (Fin 1) 3 = Fin r'
                              /\ r <= r')
    by (eexists; eexists; split; [reflexivity | split; [reflexivity | discriminate]]).
  destruct r2 as [l|], r4 as [f|], em as [e|];
    try (destruct Hone as (r & r' & E1 & E2 & Hr);
         eexists; eexists; exists r, r';
         split; [reflexivity|]; split; [reflexivity|];
         cbn [valence arousal fst snd];
         repeat split; solve [exact E1 | exact E2 | exact Hr]).
  destruct (compute_arousal_mono _ _ l l f f e e Hn (Qle_refl l) (Qle_refl f) (Qle_refl e))
    as (a & a' & -> & -> & Ha).
  destruct (py_round_monotone_aux a a' 3 Ha) as (r & r' & E1 & E2 & Hr).
  eexists. eexists. exists r, r'.
  split; [reflexivity|]. split; [reflexivity|].
  cbn [valence arousal fst snd]. repeat split; assumption.
Qed.

Lemma reported_arousal_monotone_in_bpm_witness :
  exists m m' a a',
    analyze (set_bpm extractor_down (Fin 90)) = Returned m
    /\ analyze (set_bpm extractor_down (Fin 170)) = Returned m'
    /\ arousal m = Fin a /\ arousal m' = Fin a' /\ a <= a'
    /\ valence m = valence m'.
Proof.
  apply (reported_arousal_monotone_in_bpm extractor_down 90 170). discriminate.
Defined.

(** * The command line of [analyze.py] *)

Section CommandLine.

Variable essentia : string -> result Essentia.
Variable str : exn -> string.

(** X20: The program exits with status 0 exactly when a path was given and the
    extractors succeeded on it: once the features are extracted, the
    scoring itself cannot fail. *)
Theorem main_succeeds_iff_extracted (argv : list string) :
  Cli.exit_status (Cli.main essentia str argv) = 0%Z
  <-> exists path es, nth_error argv 1 = Some path /\ essentia path = Returned es.
Proof.
  unfold Cli.main, Cli.analyze_path.
  destruct argv as [|prog [|path rest]]; cbn [nth_error].
  - split; [discriminate | intros (p & es & Hp & _); discriminate].
  - split; [discriminate | intros (p & es & Hp & _); discriminate].
  - destruct (essentia path) as [es|e] eqn:E; cbn [bind].
    + destruct (analyze_returns es) as (m & ->). cbn [Cli.exit_status].
      split; [intros _; exists path, es; split; [reflexivity | exact E] | reflexivity].
    + cbn [Cli.exit_status]. split; [discriminate|].
      intros (p & es & Hp & Hes). injection Hp as <-. congruence.
Qed.


End CommandLine.

(** * visualize.py *)

Import Visualize.

Lemma for_each_length {A B : Type} (f : A -> outcome B) (l : list A) (bs : list B) :
  for_each f l = Done bs -> length bs = length l.
Proof.
  revert bs. induction l as [|a l IH]; intros bs H; simpl in H.
  - injection H as <-. reflexivity.
  - destruct (f a) as [b|]; [|discriminate]. simpl in H.
    destruct (for_each f l) as [bs'|]; [|discriminate]. simpl in H.
    injection H as <-. simpl. f_equal. apply IH. reflexivity.
Qed.

Lemma for_each_pointwise {A B : Type} (f : A -> outcome B) (l : list A) (bs : list B) :
  for_each f l = Done bs -> Forall2 (fun a b => f a = Done b) l bs.
Proof.
  revert bs. induction l as [|a l IH]; intros bs H; simpl in H.
  - injection H as <-. constructor.
  - destruct (f a) as [b|] eqn:E; [|discriminate]. simpl in H.
    destruct (for_each f l) as [bs'|]; [|discriminate]. simpl in H.
    injection H as <-. constructor; [exact E | apply IH; reflexivity].
Qed.


Lemma for_each_fails {A B : Type} (f : A -> outcome B) (e : failure) (l : list A) :
  (forall a e', f a = Fail e' -> e' = e) ->
  (exists a, In a l /\ f a = Fail e) ->
  for_each f l = Fail e.
Proof.
  intros Hone (a & Hin & Ha). induction l as [|x l IH]; [contradiction|].
  simpl. destruct (f x) as [b|e'] eqn:Ex.
  - destruct Hin as [->|Hin]; [congruence|]. simpl. rewrite (IH Hin). reflexivity.
  - simpl. f_equal. apply (Hone x), Ex.
Qed.

Lemma track_of_fails (features : json) (e : failure) :
  track_of features = Fail e -> e = AttributeError.
Proof. destruct features; simpl; congruence. Qed.

(** X22: One entry of "tracks" whose value is not an object makes the whole
    load raise [AttributeError]: no track is returned, not even the
    well-formed ones. *)
Theorem load_trackdat_rejects_malformed_entry
    (d items : dict) (file_path : string) (features : json) :
  dict_find d "tracks" = Some (JObj items) ->
  In (file_path, features) items ->
  (forall f, features <> JObj f) ->
  load_trackdat (JObj d) = Fail AttributeError.
Proof.
  intros Ht Hin Hbad. unfold load_trackdat, dict_get. rewrite Ht.
  apply for_each_fails.
  - intros a e'. apply track_of_fails.
  - exists (file_path, features). split; [exact Hin|].
    simpl. destruct features; try reflexivity. elim (Hbad members). reflexivity.
Qed.

Lemma load_trackdat_rejects_malformed_entry_witness :
  load_trackdat
    (JObj [("tracks"%string,
            JObj [("a.mp3"%string, JObj [("valence"%string, JNum (Fin 0.9))]);
                  ("b.mp3"%string, JNull)])])
  = Fail AttributeError.
Proof.
  apply (load_trackdat_rejects_malformed_entry
           [("tracks"%string,
             JObj [("a.mp3"%string, JObj [("valence"%string, JNum (Fin 0.9))]);
                   ("b.mp3"%string, JNull)])]
           [("a.mp3"%string, JObj [("valence"%string, JNum (Fin 0.9))]);
            ("b.mp3"%string, JNull)]
           "b.mp3" JNull).
  - reflexivity.
  - simpl. tauto.
  - discriminate.
Defined.

(** X23: A successful load returns one track per entry of "tracks", in the same
    order, and each track carries the entry's artist, title, valence and
    arousal, with "", "", 0.5 and 0.5 where the entry has no such key. *)
Theorem load_trackdat_keeps_every_entry (data : json) (tracks : list dict) :
  load_trackdat data = Done tracks ->
  exists d items,
    data = JObj d
    /\ dict_get d "tracks" (JObj []) = JObj items
    /\ Forall2 (fun item t =>
         exists f,
           snd item = JObj f
           /\ dict_index t "artist" = Done (dict_get f "artist" (JStr ""))
           /\ dict_index t "title" = Done (dict_get f "title" (JStr ""))
           /\ dict_index t "valence" = Done (dict_get f "valence" (JNum (Fin 0.5)))
           /\ dict_index t "arousal" = Done (dict_get f "arousal" (JNum (Fin 0.5))))
         items tracks.
Proof.
  intro H. destruct data as [| | | | |d]; try discriminate.
  unfold load_trackdat in H.
  destruct (dict_get d "tracks" (JObj [])) as [| | | | |items] eqn:Et; try discriminate.
  exists d, items. split; [reflexivity|]. split; [exact Et|].
  apply for_each_pointwise in H.
  eapply Forall2_impl; [|exact H].
  intros [k v] t Ht. simpl in Ht. destruct v as [| | | | |f]; try discriminate.
  injection Ht as <-. exists f. repeat split; reflexivity.
Qed.

Lemma load_trackdat_keeps_every_entry_witness :
  exists d items,
    JObj [("tracks"%string, JObj [("a.mp3"%string, JObj [("valence"%string, JNull)])])]
    = JObj d
    /\ dict_get d "tracks" (JObj []) = JObj items
    /\ Forall2 (fun item t =>
         exists f,
           snd item = JObj f
           /\ dict_index t "artist" = Done (dict_get f "artist" (JStr ""))
           /\ dict_index t "title" = Done (dict_get f "title" (JStr ""))
           /\ dict_index t "valence" = Done (dict_get f "valence" (JNum (Fin 0.5)))
           /\ dict_index t "arousal" = Done (dict_get f "arousal" (JNum (Fin 0.5))))
         items
         [[("artist"%string, JStr ""); ("title"%string, JStr "");
           ("valence"%string, JNull); ("arousal"%string, JNum (Fin 0.5))]].
Proof.
  apply (load_trackdat_keeps_every_entry
           (JObj [("tracks"%string, JObj [("a.mp3"%string, JObj [("valence"%string, JNull)])])])).
  reflexivity.
Defined.

(** ** [plot_mood_map] *)

Lemma py_range_length (stop step : nat) :
  length (py_range stop step) = ((stop + step - 1) / step)%nat.
Proof. unfold py_range. rewrite length_map, length_seq. reflexivity. Qed.


(** The number of annotations for [n] labels. *)
Lemma annotation_count (n : nat) :
  let step := Nat.max 1 (n / 30) in
  let count := ((n + step - 1) / step)%nat in
  (count <= 59)%nat /\ (count <= n)%nat
  /\ (n < 60 -> count = n)%nat /\ (30 <= n -> 30 <= count)%nat.
Proof.
  cbv zeta.
  pose proof (Nat.Div0.mul_div_le n 30) as Hlo.
  pose proof (Nat.mul_succ_div_gt n 30 ltac:(lia)) as Hhi.
  set (q := (n / 30)%nat) in *.
  destruct (Nat.le_gt_cases q 1) as [Hq|Hq].
  - assert (Hstep : Nat.max 1 q = 1%nat) by lia. rewrite Hstep.
    replace (n + 1 - 1)%nat with n by lia. rewrite Nat.div_1_r. lia.
  - assert (Hstep : Nat.max 1 q = q) by lia. rewrite Hstep.
    assert (Hup : ((n + q - 1) / q < 46)%nat)
      by (apply Nat.Div0.div_lt_upper_bound; lia).
    assert (Hdown : (30 <= (n + q - 1) / q)%nat)
      by (apply Nat.div_le_lower_bound; lia).
    assert (Hn : ((n + q - 1) / q <= n)%nat)
      by (apply Nat.Div0.div_le_upper_bound; nia).
    lia.
Qed.

Lemma plot_inversion (tracks : list dict) (fig : figure) :
  plot_mood_map tracks = Done fig ->
  exists (valence arousal : list json) (labels : list label),
    for_each (fun t => dict_index t "valence") tracks = Done valence
    /\ for_each (fun t => dict_index t "arousal") tracks = Done arousal
    /\ length labels = length tracks
    /\ length (annotations fig)
       = length (py_range (length labels) (Nat.max 1 (length labels / 30)))
    /\ points fig = combine valence arousal
    /\ colours fig = arousal.
Proof.
  unfold plot_mood_map. intro H.
  destruct (for_each (fun t => dict_index t "valence") tracks) as [valence|];
    [|discriminate].
  destruct (for_each (fun t => dict_index t "arousal") tracks) as [arousal|];
    [|discriminate].
  cbn [and_then] in H.
  match type of H with
  | and_then ?m _ = _ => destruct m as [labels|] eqn:El; [|discriminate]
  end.
  cbn [and_then] in H. cbv zeta in H.
  match type of H with
  | and_then ?m _ = _ => destruct m as [notes|] eqn:En; [|discriminate]
  end.
  cbn [and_then] in H. injection H as <-.
  exists valence, arousal, labels. cbn [annotations points colours].
  repeat split.
  - apply (for_each_length _ _ _ El).
  - apply (for_each_length _ _ _ En).
Qed.

(** X25: However many tracks there are, at most 59 points are annotated; up to
    59 tracks every point is, and from 30 tracks on at least 30 are. *)
Theorem annotations_are_bounded (tracks : list dict) (fig : figure) :
  plot_mood_map tracks = Done fig ->
  (length (annotations fig) <= 59)%nat
  /\ (length (annotations fig) <= length tracks)%nat
  /\ (length tracks < 60 -> length (annotations fig) = length tracks)%nat
  /\ (30 <= length tracks -> 30 <= length (annotations fig))%nat.
Proof.
  intro H. destruct (plot_inversion _ _ H) as (v & a & labels & _ & _ & Hl & Hn & _).
  rewrite Hn, py_range_length, Hl. apply annotation_count.
Qed.





Lemma annotations_are_bounded_witness :
  let track := [("artist"%string, JStr "Nina"); ("title"%string, JStr "");
                ("valence"%string, JNum (Fin 0.9)); ("arousal"%string, JNum (Fin 0.5))] in
  let fig := {| points := [(JNum (Fin 0.9), JNum (Fin 0.5))];
                colours := [JNum (Fin 0.5)];
                annotations := [(mkLabel (JStr "Nina") (JStr ""),
                                 (JNum (Fin 0.9), JNum (Fin 0.5)))] |} in
  (length (annotations fig) <= 59)%nat
  /\ (length (annotations fig) <= length [track])%nat
  /\ (length [track] < 60 -> length (annotations fig) = length [track])%nat
  /\ (30 <= length [track] -> 30 <= length (annotations fig))%nat.
Proof.
  intros track fig. apply (annotations_are_bounded [track] fig). reflexivity.
Defined.
